(** * pydm.data_plugins: plugin discovery and the protocol registry

    A shallow embedding of [pydm/data_plugins/__init__.py]: the global
    registry [plugin_modules], [add_plugin], [load_plugins_from_path] and the
    module's start-up code, followed by the properties of the specification
    that concern them.

    Conventions of the model.
    - Paths follow POSIX: [os.path.sep] is "/", [os.pathsep] is ":" and
      [os.path.join] is [posixpath.join].
    - The file system and the outcome of loading each file are inputs: a
      directory tree lists, for every file, either the module object that
      [imp.load_source] returns or the exception (an [Exception]) it raises.
    - A class object is a record that carries its identity [cls_id]; the
      Python operators [is], [==] and [!=] on classes compare identities.
    - Python does not fix the iteration order of a [set]; it is a parameter
      ([SetOrder]) of which only what the language guarantees is assumed.
    - [uuid.uuid4()] only names the loaded module and is left out.
    - The variables of a list comprehension are local to it, as in Python 3:
      after the comprehension [name] is still the name of the file. *)

From Stdlib Require Import Ascii Sorted.
From stdpp Require Import gmap strings list fin_maps.

Open Scope string_scope.
Open Scope list_scope.

(** ** Strings and paths *)

(** [s.startswith(p)] *)
Definition str_startswith (s p : string) : bool := String.prefix p s.

(** [s.endswith(suffix)]: some tail of [s] is [suffix]. *)
Fixpoint str_endswith (s suffix : string) : bool :=
  if String.eqb s suffix then true
  else match s with
       | EmptyString => false
       | String _ s' => str_endswith s' suffix
       end.

(** [s.split(sep)] for a one-character separator. *)
Fixpoint str_split (sep : ascii) (s : string) : list string :=
  match s with
  | EmptyString => [EmptyString]
  | String c s' =>
      if Ascii.eqb c sep then EmptyString :: str_split sep s'
      else match str_split sep s' with
           | [] => [String c EmptyString]
           | piece :: pieces => String c piece :: pieces
           end
  end.

(** [sep.join(pieces)] *)
Fixpoint str_join (sep : ascii) (pieces : list string) : string :=
  match pieces with
  | [] => EmptyString
  | [p] => p
  | p :: ps => p +:+ String sep (str_join sep ps)
  end.

(** [c in s] for a character. *)
Fixpoint str_contains (c : ascii) (s : string) : bool :=
  match s with
  | EmptyString => false
  | String d s' => Ascii.eqb d c || str_contains c s'
  end.

(** [s * n] *)
Fixpoint str_repeat (s : string) (n : nat) : string :=
  match n with
  | O => EmptyString
  | S n' => s +:+ str_repeat s n'
  end.

Definition os_path_sep : ascii := "/"%char.
Definition os_pathsep : ascii := ":"%char.

(** [os.path.join(a, b)] ([posixpath.join] with two arguments). *)
Definition os_path_join (a b : string) : string :=
  if str_startswith b "/" then b
  else if String.eqb a "" || str_endswith a "/" then a +:+ b
  else a +:+ "/" +:+ b.

(** [root.split(os.path.sep)[-1]] *)
Definition last_component (root : string) : string :=
  List.last (str_split os_path_sep root) EmptyString.

(** [l.insert(i, x)] for [i >= 0]. *)
Definition py_list_insert {A} (i : nat) (x : A) (l : list A) : list A :=
  take i l ++ x :: drop i l.

(** ** Python objects *)

(** A class object.  [cls_is_plugin] is [issubclass(obj, PyDMPlugin)],
    [cls_name] is [obj.__name__] and [cls_protocol] is [obj.protocol]. *)
Record PyClass := mkClass {
  cls_id : nat;
  cls_name : string;
  cls_is_plugin : bool;
  cls_protocol : option string
}.

(** Modelled from the spec: the base abstraction [PyDMPlugin] is defined in
    [plugin.py], which is not part of the sources at hand.  Only its identity
    matters here; it is a subclass of itself and its protocol is unset. *)
Definition PyDMPlugin : PyClass :=
  {| cls_id := 0; cls_name := "PyDMPlugin";
     cls_is_plugin := true; cls_protocol := None |}.

(** [a is b] *)
Definition py_is (a b : PyClass) : bool := Nat.eqb (cls_id a) (cls_id b).

(** [d.get(k) != plugin]: [None] differs from every class. *)
Definition py_ne (o : option PyClass) (plugin : PyClass) : bool :=
  match o with
  | None => true
  | Some q => negb (py_is q plugin)
  end.

(** A module attribute: a class, or anything else. *)
Inductive PyObj :=
  | ObjClass (c : PyClass)
  | ObjOther.

(** A module object: its attributes by name. *)
Definition PyModule := list (string * PyObj).

(** What [imp.load_source] does with a file. *)
Inductive LoadResult :=
  | Loaded (m : PyModule)
  | LoadRaises (e : string).

Definition File : Type := string * LoadResult.

(** A directory: its files and its sub-directories, in listing order. *)
#[local] Set Warnings "-register-all".
Inductive Dir :=
  | mkDir (files : list File) (subdirs : list (string * Dir)).

Definition FileSystem := list (string * Dir).

(** ** Iteration order of a set of classes *)

Record SetOrder := mkSetOrder {
  set_to_list : list PyClass -> list PyClass;
  set_to_list_sound : forall l c, In c (set_to_list l) -> In c l;
  set_to_list_complete :
    forall l c, In c l ->
      exists c', In c' (set_to_list l) /\ cls_id c' = cls_id c;
  set_to_list_nodup : forall l, NoDup (map cls_id (set_to_list l))
}.

(** An order by object identity, as a hash table keyed on identities gives:
    every element goes to the place its identity assigns. *)
Fixpoint slot_insert (c : PyClass) (t : list PyClass) : list PyClass :=
  match t with
  | [] => [c]
  | d :: t' =>
      if Nat.eqb (cls_id c) (cls_id d) then d :: t'
      else if Nat.ltb (cls_id c) (cls_id d) then c :: d :: t'
      else d :: slot_insert c t'
  end.

Definition by_identity (l : list PyClass) : list PyClass :=
  fold_left (fun t c => slot_insert c t) l [].

(** ** Log records *)

Inductive Level := INFO | WARNING | ERROR.

Inductive Message :=
  | MsgText (s : string)
  | MsgLooking (root : string)
  | MsgTrying (name : string)
  | MsgUnableToImport (name : string) (e : string)
  | MsgMoreThanOneSubclass (name : string) (chosen : string)
  | MsgMoreThanOnePlugin (protocol : option string)
  | MsgReplacing (plugin old : PyClass) (protocol : option string).

Definition LogRecord : Type := Level * Message.

(** ** Program state

    [plugin_modules], [log] (what [logger] received) and [sys_path] are
    globals of the process; [added_plugins] and [module] are the local
    variables of the running call of [load_plugins_from_path], [module]
    being [None] while the variable is unbound.  Dictionary keys are
    [plugin.protocol] values, which may be [None]. *)
Record State := mkState {
  plugin_modules : gmap (option string) PyClass;
  log : list LogRecord;
  sys_path : list string;
  added_plugins : gmap (option string) PyClass;
  module : option PyModule
}.

Inductive PyExn :=
  | UnboundLocalError (var : string).

Inductive Result (A : Type) :=
  | Done (a : A)
  | Raise (e : PyExn).
Arguments Done {A} a.
Arguments Raise {A} e.

Definition M (A : Type) : Type := State -> State * Result A.

Definition ret {A} (a : A) : M A := fun st => (st, Done a).

Definition bind {A B} (m : M A) (k : A -> M B) : M B :=
  fun st =>
    match m st with
    | (st', Done a) => k a st'
    | (st', Raise e) => (st', Raise e)
    end.

Definition raise {A} (e : PyExn) : M A := fun st => (st, Raise e).

Declare Scope py_scope.
Delimit Scope py_scope with py.
Notation "x <- m ;; k" := (bind m (fun x => k))
  (at level 100, m at next level, right associativity) : py_scope.
Notation "m ;; k" := (bind m (fun _ => k))
  (at level 100, right associativity) : py_scope.
Open Scope py_scope.

Definition get_state : M State := fun st => (st, Done st).

(** The state after [logger] has received the records [l]. *)
Definition emit (l : list LogRecord) (st : State) : State :=
  {| plugin_modules := plugin_modules st;
     log := log st ++ l;
     sys_path := sys_path st;
     added_plugins := added_plugins st;
     module := module st |}.

(** [logger.info], [logger.warning] and [logger.exception] *)
Definition logger (lvl : Level) (msg : Message) : M unit :=
  fun st => (emit [(lvl, msg)] st, Done tt).

Definition set_plugin_modules (r : gmap (option string) PyClass) : M unit :=
  fun st =>
    ({| plugin_modules := r;
        log := log st;
        sys_path := sys_path st;
        added_plugins := added_plugins st;
        module := module st |}, Done tt).

Definition sys_path_append (p : string) : M unit :=
  fun st =>
    ({| plugin_modules := plugin_modules st;
        log := log st;
        sys_path := sys_path st ++ [p];
        added_plugins := added_plugins st;
        module := module st |}, Done tt).

Definition set_added_plugins (a : gmap (option string) PyClass) : M unit :=
  fun st =>
    ({| plugin_modules := plugin_modules st;
        log := log st;
        sys_path := sys_path st;
        added_plugins := a;
        module := module st |}, Done tt).

Definition set_module (m : option PyModule) : M unit :=
  fun st =>
    ({| plugin_modules := plugin_modules st;
        log := log st;
        sys_path := sys_path st;
        added_plugins := added_plugins st;
        module := m |}, Done tt).

(** Reading the local variable [module]. *)
Definition read_module : M PyModule :=
  fun st =>
    match module st with
    | Some m => (st, Done m)
    | None => (st, Raise (UnboundLocalError "module"))
    end.

(** [for x in l: body(x)] *)
Fixpoint for_each {A} (l : list A) (body : A -> M unit) : M unit :=
  match l with
  | [] => ret tt
  | x :: l' => body x ;; for_each l' body
  end.

(** ** The registry *)

(** [add_plugin(plugin)] *)
Definition add_plugin (plugin : PyClass) : M unit :=
  st <- get_state ;;
  match plugin_modules st !! cls_protocol plugin with
  | Some old =>
      logger WARNING (MsgReplacing plugin old (cls_protocol plugin))
  | None => ret tt
  end ;;
  set_plugin_modules (<[cls_protocol plugin := plugin]> (plugin_modules st)).

(** ** Discovery *)

Definition DATA_PLUGIN_TOKEN : string := "_plugin.py".

(** [os.walk(top)], top-down, over the tree found at [top]. *)
Fixpoint walk (top : string) (d : Dir) : list (string * list File) :=
  match d with
  | mkDir files subdirs =>
      (top, files)
        :: flat_map (fun sub => walk (os_path_join top (fst sub)) (snd sub))
                    subdirs
  end.

Fixpoint fs_lookup (fs : FileSystem) (loc : string) : option Dir :=
  match fs with
  | [] => None
  | (p, d) :: fs' => if String.eqb p loc then Some d else fs_lookup fs' loc
  end.

(** [os.walk(loc)]: nothing is yielded for a path that is no directory. *)
Definition os_walk (fs : FileSystem) (loc : string) : list (string * list File) :=
  match fs_lookup fs loc with
  | Some d => walk loc d
  | None => []
  end.

(** Insertion of a member into a list sorted by name. *)
Fixpoint insert_member (x : string * PyObj) (l : list (string * PyObj))
  : list (string * PyObj) :=
  match l with
  | [] => [x]
  | y :: l' =>
      if String.leb (fst x) (fst y) then x :: y :: l'
      else y :: insert_member x l'
  end.

(** [inspect.getmembers(module)]: the attributes, sorted by name. *)
Definition getmembers (m : PyModule) : list (string * PyObj) :=
  fold_right insert_member [] m.

(** The list comprehension of [load_plugins_from_path]. *)
Definition qualifying (obj : PyObj) : option PyClass :=
  match obj with
  | ObjClass c =>
      if cls_is_plugin c && negb (py_is c PyDMPlugin) then Some c else None
  | ObjOther => None
  end.

Definition plugin_classes (m : PyModule) : list PyClass :=
  omap (fun member => qualifying (snd member)) (getmembers m).

(** The [try] statement: the file is loaded, or the exception is logged. *)
Definition try_load (root name : string) (content : LoadResult) : M unit :=
  logger INFO (MsgTrying name) ;;
  sys_path_append root ;;
  match content with
  | Loaded m => set_module (Some m)
  | LoadRaises e => logger ERROR (MsgUnableToImport name e)
  end.

(** [if plugin.protocol is not None: ...], the last statement of the loop
    body. *)
Definition register_plugin (plugin : PyClass) : M unit :=
  match cls_protocol plugin with
  | None => ret tt
  | Some _ =>
      st <- get_state ;;
      (if py_ne (plugin_modules st !! cls_protocol plugin) plugin
       then logger WARNING (MsgMoreThanOnePlugin (cls_protocol plugin))
       else ret tt) ;;
      add_plugin plugin ;;
      st' <- get_state ;;
      set_added_plugins
        (<[cls_protocol plugin := plugin]> (added_plugins st'))
  end.

(** The statements that follow the [try] statement, once the variable
    [module] has been read: [m] is its value and [name] the file name. *)
Definition inspect_module (so : SetOrder) (name : string) (m : PyModule)
  : M unit :=
  let classes := set_to_list so (plugin_classes m) in
  match classes with
  | [] => ret tt
  | plugin :: _ =>
      (if Nat.ltb 1 (length classes)
       then logger WARNING (MsgMoreThanOneSubclass name (cls_name plugin))
       else ret tt) ;;
      register_plugin plugin
  end.

(** The statements that follow the [try] statement. *)
Definition inspect_and_register (so : SetOrder) (name : string) : M unit :=
  m <- read_module ;;
  inspect_module so name m.

(** The body of [for name in files]. *)
Definition file_body (so : SetOrder) (root : string) (f : File) : M unit :=
  if str_endswith (fst f) DATA_PLUGIN_TOKEN
  then try_load root (fst f) (snd f) ;; inspect_and_register so (fst f)
  else ret tt.

(** The body of [for root, _, files in os.walk(loc)]. *)
Definition dir_body (so : SetOrder) (entry : string * list File) : M unit :=
  if str_startswith (last_component (fst entry)) "__" then ret tt
  else
    logger INFO (MsgLooking (fst entry)) ;;
    for_each (snd entry) (file_body so (fst entry)).

Definition scan (fs : FileSystem) (so : SetOrder) (locations : list string)
  : M unit :=
  for_each locations (fun loc => for_each (os_walk fs loc) (dir_body so)).

(** [load_plugins_from_path(locations, token)].  The parameter [token] is
    not used by the body, which tests against [DATA_PLUGIN_TOKEN]. *)
Definition load_plugins_from_path (fs : FileSystem) (so : SetOrder)
    (locations : list string) (token : string)
  : M (gmap (option string) PyClass) :=
  set_added_plugins ∅ ;;
  set_module None ;;
  scan fs so locations ;;
  st <- get_state ;;
  ret (added_plugins st).

(** ** Start-up code of the module *)

(** The list [locations] built at import time; [env] is the value of
    [PYDM_DATA_PLUGINS_PATH]. *)
Definition startup_locations (env : option string) (plugin_dir : string)
  : list string :=
  let locations :=
    match env with
    | None => []
    | Some path => str_split os_pathsep path
    end in
  py_list_insert 0 plugin_dir locations.

Definition initial_state : State :=
  {| plugin_modules := ∅; log := []; sys_path := [];
     added_plugins := ∅; module := None |}.

Definition module_init (fs : FileSystem) (so : SetOrder)
    (env : option string) (plugin_dir : string)
  : State * Result (gmap (option string) PyClass) :=
  (logger INFO (MsgText (str_repeat "*" 80)) ;;
   logger INFO (MsgText "* Loading PyDM Data Plugins") ;;
   logger INFO (MsgText (str_repeat "*" 80)) ;;
   load_plugins_from_path fs so (startup_locations env plugin_dir)
     DATA_PLUGIN_TOKEN) initial_state.

(** ** Vocabulary of the statements *)

(** The effect of [plugin_modules[plugin.protocol] = plugin] on a dictionary. *)
Definition register (d : gmap (option string) PyClass) (plugin : PyClass)
  : gmap (option string) PyClass :=
  <[cls_protocol plugin := plugin]> d.

(** The definition registered last for [k] in a sequence of registrations. *)
Fixpoint last_registered (k : option string) (regs : list PyClass)
  : option PyClass :=
  match regs with
  | [] => None
  | p :: regs' =>
      match last_registered k regs' with
      | Some q => Some q
      | None => if decide (cls_protocol p = k) then Some p else None
      end
  end.

(** What [add_plugin] logs when the registry is [reg]. *)
Definition replacing_log (reg : gmap (option string) PyClass)
    (plugin : PyClass) : list LogRecord :=
  match reg !! cls_protocol plugin with
  | Some old => [(WARNING, MsgReplacing plugin old (cls_protocol plugin))]
  | None => []
  end.

(** What the loop body logs before it calls [add_plugin]. *)
Definition conflict_log (reg : gmap (option string) PyClass)
    (plugin : PyClass) : list LogRecord :=
  if py_ne (reg !! cls_protocol plugin) plugin
  then [(WARNING, MsgMoreThanOnePlugin (cls_protocol plugin))]
  else [].

(** The state after a class with a protocol went through the last statement
    of the loop body. *)
Definition registered (plugin : PyClass) (st : State) : State :=
  {| plugin_modules := register (plugin_modules st) plugin;
     log := log st ++ conflict_log (plugin_modules st) plugin
                   ++ replacing_log (plugin_modules st) plugin;
     sys_path := sys_path st;
     added_plugins := register (added_plugins st) plugin;
     module := module st |}.

(** The state after the [try] statement was entered for a file of [root]. *)
Definition attempted (root name : string) (st : State) : State :=
  {| plugin_modules := plugin_modules st;
     log := log st ++ [(INFO, MsgTrying name)];
     sys_path := sys_path st ++ [root];
     added_plugins := added_plugins st;
     module := module st |}.

Definition bound (m : PyModule) (st : State) : State :=
  {| plugin_modules := plugin_modules st;
     log := log st;
     sys_path := sys_path st;
     added_plugins := added_plugins st;
     module := Some m |}.

(** The test of [dir_body] on the path of a directory. *)
Definition reserved (root : string) : bool :=
  str_startswith (last_component root) "__".

Definition is_conflict_warning (r : LogRecord) : bool :=
  match r with
  | (WARNING, MsgMoreThanOnePlugin _) => true
  | _ => false
  end.

Definition is_multiple_warning (r : LogRecord) : bool :=
  match r with
  | (WARNING, MsgMoreThanOneSubclass _ _) => true
  | _ => false
  end.

Definition count_records (f : LogRecord -> bool) (l : list LogRecord) : nat :=
  length (List.filter f l).

(** The state in which [load_plugins_from_path] starts its loops: the local
    dictionary is empty and [module] is unbound. *)
Definition entered (st : State) : State :=
  {| plugin_modules := plugin_modules st;
     log := log st;
     sys_path := sys_path st;
     added_plugins := ∅;
     module := None |}.

(** [st] is reached from [st0] by registering the classes [regs], in this
    order, in both dictionaries, and by load attempts in the directories
    [roots]. *)
Definition Reached (st0 st : State) (regs : list PyClass) (roots : list string)
  : Prop :=
  plugin_modules st = fold_left register regs (plugin_modules st0) /\
  added_plugins st = fold_left register regs (added_plugins st0) /\
  Forall (fun p => cls_protocol p <> None) regs /\
  sys_path st = sys_path st0 ++ roots /\
  Forall (fun r => reserved r = false) roots.

Definition Trace (st0 st : State) : Prop :=
  exists regs roots, Reached st0 st regs roots.

(** The records that [logger] received between the states [st] and [st']. *)
Definition new_records (st st' : State) : list LogRecord :=
  drop (length (log st)) (log st').

(** The state in which the start-up code calls [load_plugins_from_path]. *)
Definition banner_state : State :=
  emit [(INFO, MsgText (str_repeat "*" 80));
        (INFO, MsgText "* Loading PyDM Data Plugins");
        (INFO, MsgText (str_repeat "*" 80))] initial_state.

(** ** Candidate files *)

(** The test of [file_body] on a file. *)
Definition is_candidate (f : File) : bool :=
  str_endswith (fst f) DATA_PLUGIN_TOKEN.

(** The files of a walked directory for which a load is attempted, each
    with the path of the directory. *)
Definition dir_candidates (entry : string * list File)
  : list (string * File) :=
  if reserved (fst entry) then []
  else map (pair (fst entry)) (List.filter is_candidate (snd entry)).

(** The candidate files of a call, in the order of the scan. *)
Definition scan_candidates (fs : FileSystem) (locations : list string)
  : list (string * File) :=
  flat_map (fun loc => flat_map dir_candidates (os_walk fs loc)) locations.





(** The number of occurrences of a character in a string. *)
Fixpoint str_count (c : ascii) (s : string) : nat :=
  match s with
  | EmptyString => 0
  | String d s' => (if Ascii.eqb d c then 1 else 0) + str_count c s'
  end.

(** The record that opens the [try] statement. *)
Definition is_trying (r : LogRecord) : bool :=
  match r with
  | (INFO, MsgTrying _) => true
  | _ => false
  end.

(** A piece of the scan that returns has attempted one load for each of its
    candidate files [cands], in their order: it has appended their
    directories to [sys.path] and has logged their names. *)
Definition Attempts (cands : list (string * File)) (f : M unit) : Prop :=
  forall st,
    snd (f st) = Done tt ->
    sys_path (fst (f st)) = sys_path st ++ map fst cands /\
    List.filter is_trying (new_records st (fst (f st)))
      = map (fun c => (INFO, MsgTrying (fst (snd c)))) cands.


(** ** Sample plugins and directories *)

Definition GoodPlugin : PyClass :=
  {| cls_id := 1; cls_name := "GoodPlugin";
     cls_is_plugin := true; cls_protocol := Some "good" |}.

Definition good_module : PyModule :=
  [("GoodPlugin", ObjClass GoodPlugin); ("PyDMPlugin", ObjClass PyDMPlugin);
   ("logger", ObjOther)].

(** A broken file listed before a valid one. *)
Definition broken_first : FileSystem :=
  [("/plugins",
    mkDir [("bad_plugin.py", LoadRaises "SyntaxError");
           ("good_plugin.py", Loaded good_module)] [])].

(** A broken file listed after a valid one. *)
Definition broken_second : FileSystem :=
  [("/plugins",
    mkDir [("good_plugin.py", Loaded good_module);
           ("bad_plugin.py", LoadRaises "SyntaxError")] [])].

Definition DeepPlugin : PyClass :=
  {| cls_id := 3; cls_name := "DeepPlugin";
     cls_is_plugin := true; cls_protocol := Some "deep" |}.

Definition ShallowPlugin : PyClass :=
  {| cls_id := 4; cls_name := "ShallowPlugin";
     cls_is_plugin := true; cls_protocol := Some "shallow" |}.

(** [/plugins/__internal/shallow_plugin.py] and
    [/plugins/__internal/helpers/deep_plugin.py]. *)
Definition nested_reserved : FileSystem :=
  [("/plugins",
    mkDir []
      [("__internal",
        mkDir [("shallow_plugin.py",
                Loaded [("ShallowPlugin", ObjClass ShallowPlugin)])]
          [("helpers",
            mkDir [("deep_plugin.py",
                    Loaded [("DeepPlugin", ObjClass DeepPlugin)])] [])])])].

Definition DraftA : PyClass :=
  {| cls_id := 5; cls_name := "DraftA";
     cls_is_plugin := true; cls_protocol := None |}.

Definition DraftB : PyClass :=
  {| cls_id := 6; cls_name := "DraftB";
     cls_is_plugin := true; cls_protocol := None |}.

(** One file with two qualifying classes, none of which has a protocol. *)
Definition two_drafts : FileSystem :=
  [("/plugins",
    mkDir [("draft_plugin.py",
            Loaded [("DraftA", ObjClass DraftA);
                    ("DraftB", ObjClass DraftB)])] [])].

Definition Alpha : PyClass :=
  {| cls_id := 9; cls_name := "Alpha";
     cls_is_plugin := true; cls_protocol := Some "a" |}.

Definition Beta : PyClass :=
  {| cls_id := 8; cls_name := "Beta";
     cls_is_plugin := true; cls_protocol := Some "b" |}.

(** One file with two qualifying classes; the identity of [Beta] comes
    before that of [Alpha]. *)
Definition alpha_beta : FileSystem :=
  [("/plugins",
    mkDir [("two_plugin.py",
            Loaded [("Alpha", ObjClass Alpha); ("Beta", ObjClass Beta)])] [])].

Definition FirstX : PyClass :=
  {| cls_id := 10; cls_name := "FirstX";
     cls_is_plugin := true; cls_protocol := Some "x" |}.

Definition SecondX : PyClass :=
  {| cls_id := 11; cls_name := "SecondX";
     cls_is_plugin := true; cls_protocol := Some "x" |}.

(** Two files that both define a handler of the protocol "x". *)
Definition same_protocol : FileSystem :=
  [("/plugins",
    mkDir [("first_plugin.py", Loaded [("FirstX", ObjClass FirstX)]);
           ("second_plugin.py", Loaded [("SecondX", ObjClass SecondX)])] [])].

(** * Properties *)

(** ** The two set orders *)

Lemma slot_insert_In c t x : In x (slot_insert c t) -> x = c \/ In x t.
Proof.
  induction t as [|d t IH]; simpl.
  - intros [->|[]]; auto.
  - destruct (Nat.eqb (cls_id c) (cls_id d)); [auto|].
    destruct (Nat.ltb (cls_id c) (cls_id d)); simpl.
    + intros [->|H]; auto.
    + intros [->|H]; auto. destruct (IH H); auto.
Qed.

Lemma slot_insert_keeps c t x : In x t -> In x (slot_insert c t).
Proof.
  induction t as [|d t IH]; simpl; [tauto|].
  destruct (Nat.eqb (cls_id c) (cls_id d)); [auto|].
  destruct (Nat.ltb (cls_id c) (cls_id d)); simpl; intros [->|H]; auto.
Qed.

Lemma slot_insert_has c t :
  exists c', In c' (slot_insert c t) /\ cls_id c' = cls_id c.
Proof.
  induction t as [|d t IH]; simpl.
  - exists c; auto.
  - destruct (Nat.eqb (cls_id c) (cls_id d)) eqn:E.
    + apply Nat.eqb_eq in E. exists d; simpl; auto.
    + destruct (Nat.ltb (cls_id c) (cls_id d)).
      * exists c; simpl; auto.
      * destruct IH as (c' & Hin & Hid). exists c'; simpl; auto.
Qed.

Lemma slot_insert_sorted c t :
  StronglySorted lt (map cls_id t) ->
  StronglySorted lt (map cls_id (slot_insert c t)).
Proof.
  induction t as [|d t IH]; simpl; intros Hs.
  - repeat constructor.
  - destruct (Nat.eqb (cls_id c) (cls_id d)) eqn:E; [exact Hs|].
    apply Nat.eqb_neq in E.
    inversion Hs as [|? ? Hs' Hall]; subst.
    destruct (Nat.ltb (cls_id c) (cls_id d)) eqn:L; simpl.
    + apply Nat.ltb_lt in L. constructor; [exact Hs|].
      constructor; [exact L|].
      eapply Forall_impl; [exact Hall|]. simpl. intros; lia.
    + apply Nat.ltb_ge in L. constructor; [auto|].
      apply Forall_forall. intros i Hi. apply list_elem_of_In in Hi.
      apply in_map_iff in Hi. destruct Hi as (x & <- & Hx).
      apply slot_insert_In in Hx. destruct Hx as [->|Hx]; [lia|].
      rewrite Forall_forall in Hall. apply Hall.
      apply list_elem_of_In. apply in_map. exact Hx.
Qed.

Lemma by_identity_acc_In l : forall t x,
  In x (fold_left (fun t c => slot_insert c t) l t) -> In x l \/ In x t.
Proof.
  induction l as [|c l IH]; simpl; intros t x H; [auto|].
  apply IH in H. destruct H as [H|H]; [auto|].
  apply slot_insert_In in H. destruct H; auto.
Qed.

Lemma by_identity_acc_keeps l : forall t x,
  In x t -> In x (fold_left (fun t c => slot_insert c t) l t).
Proof.
  induction l as [|c l IH]; simpl; intros t x H; [auto|].
  apply IH. apply slot_insert_keeps. exact H.
Qed.

Lemma by_identity_acc_has l : forall t c, In c l ->
  exists c', In c' (fold_left (fun t c => slot_insert c t) l t)
             /\ cls_id c' = cls_id c.
Proof.
  induction l as [|d l IH]; simpl; intros t c H; [tauto|].
  destruct H as [->|H].
  - destruct (slot_insert_has c t) as (c' & Hin & Hid).
    exists c'. split; [|exact Hid]. apply by_identity_acc_keeps. exact Hin.
  - apply IH. exact H.
Qed.

Lemma by_identity_acc_sorted l : forall t,
  StronglySorted lt (map cls_id t) ->
  StronglySorted lt (map cls_id (fold_left (fun t c => slot_insert c t) l t)).
Proof.
  induction l as [|c l IH]; simpl; intros t H; [exact H|].
  apply IH. apply slot_insert_sorted. exact H.
Qed.

Lemma sorted_lt_NoDup (l : list nat) : StronglySorted lt l -> NoDup l.
Proof.
  induction 1 as [|a l Hs IH Hall]; constructor; [|exact IH].
  intros Hin. rewrite Forall_forall in Hall.
  specialize (Hall a Hin). lia.
Qed.

Lemma by_identity_sound l c : In c (by_identity l) -> In c l.
Proof.
  intros H. apply by_identity_acc_In in H. destruct H as [H|[]]. exact H.
Qed.

Lemma by_identity_complete l c :
  In c l -> exists c', In c' (by_identity l) /\ cls_id c' = cls_id c.
Proof. apply by_identity_acc_has. Qed.

Lemma by_identity_nodup l : NoDup (map cls_id (by_identity l)).
Proof.
  apply sorted_lt_NoDup. apply by_identity_acc_sorted. constructor.
Qed.

Definition identity_order : SetOrder :=
  mkSetOrder by_identity by_identity_sound by_identity_complete
             by_identity_nodup.

(** A set with one element has one iteration order. *)
Lemma set_to_list_singleton (so : SetOrder) (c : PyClass) :
  set_to_list so [c] = [c].
Proof.
  pose proof (set_to_list_sound so [c]) as Hs.
  pose proof (set_to_list_complete so [c] c (or_introl eq_refl)) as Hc.
  pose proof (set_to_list_nodup so [c]) as Hn.
  destruct (set_to_list so [c]) as [|x [|y l]].
  - destruct Hc as (c' & [] & _).
  - destruct (Hs x (or_introl eq_refl)) as [<-|[]]. reflexivity.
  - destruct (Hs x (or_introl eq_refl)) as [<-|[]].
    destruct (Hs y (or_intror (or_introl eq_refl))) as [<-|[]].
    simpl in Hn. apply NoDup_cons in Hn. destruct Hn as [Hn _].
    exfalso. apply Hn. left.
Qed.

(** ** Running the statements *)

Lemma emit_nil st : emit [] st = st.
Proof. destruct st. unfold emit. simpl. rewrite app_nil_r. reflexivity. Qed.

Lemma emit_emit l1 l2 st : emit l2 (emit l1 st) = emit (l1 ++ l2) st.
Proof. unfold emit. simpl. rewrite app_assoc. reflexivity. Qed.

Lemma bind_done {A B} (m : M A) (k : A -> M B) st st' a :
  m st = (st', Done a) -> bind m k st = k a st'.
Proof. unfold bind. intros ->. reflexivity. Qed.

Lemma bind_raise {A B} (m : M A) (k : A -> M B) st st' e :
  m st = (st', Raise e) -> bind m k st = (st', Raise e).
Proof. unfold bind. intros ->. reflexivity. Qed.

Lemma add_plugin_run plugin st :
  add_plugin plugin st =
    ({| plugin_modules := register (plugin_modules st) plugin;
        log := log st ++ replacing_log (plugin_modules st) plugin;
        sys_path := sys_path st;
        added_plugins := added_plugins st;
        module := module st |}, Done tt).
Proof.
  unfold add_plugin, replacing_log, register, bind, get_state.
  destruct (plugin_modules st !! cls_protocol plugin); simpl.
  - reflexivity.
  - rewrite app_nil_r. reflexivity.
Qed.

Lemma register_plugin_none plugin st :
  cls_protocol plugin = None -> register_plugin plugin st = (st, Done tt).
Proof. unfold register_plugin. intros ->. reflexivity. Qed.

Lemma register_plugin_some plugin st :
  cls_protocol plugin <> None ->
  register_plugin plugin st = (registered plugin st, Done tt).
Proof.
  intros Hp. unfold register_plugin.
  destruct (cls_protocol plugin) as [x|] eqn:E; [clear Hp|congruence].
  unfold bind at 1. unfold get_state at 1. cbv beta iota.
  unfold registered, conflict_log. rewrite E.
  destruct (py_ne (plugin_modules st !! Some x) plugin).
  - unfold bind, logger, get_state, set_added_plugins. simpl.
    rewrite add_plugin_run. simpl.
    unfold register. rewrite E, <- app_assoc. reflexivity.
  - unfold bind, ret, get_state, set_added_plugins. simpl.
    rewrite add_plugin_run. simpl. unfold register. rewrite E. reflexivity.
Qed.

Lemma inspect_module_run so name m st :
  inspect_module so name m st =
    match set_to_list so (plugin_classes m) with
    | [] => (st, Done tt)
    | [plugin] => register_plugin plugin st
    | plugin :: _ :: _ =>
        register_plugin plugin
          (emit [(WARNING, MsgMoreThanOneSubclass name (cls_name plugin))] st)
    end.
Proof.
  unfold inspect_module.
  destruct (set_to_list so (plugin_classes m)) as [|p [|q l]]; reflexivity.
Qed.

(** A file with one qualifying class: the set order plays no part. *)
Lemma inspect_module_single so name m c st :
  plugin_classes m = [c] ->
  inspect_module so name m st = register_plugin c st.
Proof.
  intros H. rewrite inspect_module_run, H, set_to_list_singleton. reflexivity.
Qed.

Lemma try_load_loaded root name m st :
  try_load root name (Loaded m) st = (bound m (attempted root name st), Done tt).
Proof. reflexivity. Qed.

Lemma try_load_raises root name e st :
  try_load root name (LoadRaises e) st =
    (emit [(ERROR, MsgUnableToImport name e)] (attempted root name st), Done tt).
Proof. reflexivity. Qed.

Lemma file_body_not_candidate so root f st :
  str_endswith (fst f) DATA_PLUGIN_TOKEN = false ->
  file_body so root f st = (st, Done tt).
Proof. unfold file_body. intros ->. reflexivity. Qed.

Lemma file_body_loaded so root name m st :
  str_endswith name DATA_PLUGIN_TOKEN = true ->
  file_body so root (name, Loaded m) st =
    inspect_module so name m (bound m (attempted root name st)).
Proof. unfold file_body. simpl. intros ->. reflexivity. Qed.

Lemma file_body_raises so root name e st :
  str_endswith name DATA_PLUGIN_TOKEN = true ->
  file_body so root (name, LoadRaises e) st =
    inspect_and_register so name
      (emit [(ERROR, MsgUnableToImport name e)] (attempted root name st)).
Proof. unfold file_body. simpl. intros ->. reflexivity. Qed.

Lemma register_plugin_done plugin st : snd (register_plugin plugin st) = Done tt.
Proof.
  destruct (cls_protocol plugin) eqn:E.
  - rewrite register_plugin_some by congruence. reflexivity.
  - rewrite register_plugin_none by assumption. reflexivity.
Qed.

Lemma inspect_module_done so name m st :
  snd (inspect_module so name m st) = Done tt.
Proof.
  rewrite inspect_module_run.
  destruct (set_to_list so (plugin_classes m)) as [|p [|q l]];
    [reflexivity| |]; apply register_plugin_done.
Qed.

(** ** Loops and their invariants *)

Lemma for_each_inv {A} (P : State -> Prop) (l : list A) (body : A -> M unit) :
  (forall x st, In x l -> P st -> P (fst (body x st))) ->
  forall st, P st -> P (fst (for_each l body st)).
Proof.
  induction l as [|x l IH]; intros Hbody st HP; simpl; [exact HP|].
  unfold bind.
  pose proof (Hbody x st (or_introl eq_refl) HP) as Hx.
  destruct (body x st) as [st' [[]|e]]; simpl in *; [|exact Hx].
  apply IH; [|exact Hx].
  intros y s Hy. apply Hbody. right. exact Hy.
Qed.

Lemma Trace_refl st : Trace st st.
Proof.
  exists [], []. repeat split; simpl; auto. rewrite app_nil_r. reflexivity.
Qed.

Lemma Trace_trans st0 st1 st2 : Trace st0 st1 -> Trace st1 st2 -> Trace st0 st2.
Proof.
  intros (r1 & d1 & H1 & H2 & H3 & H4 & H5) (r2 & d2 & K1 & K2 & K3 & K4 & K5).
  exists (r1 ++ r2), (d1 ++ d2). repeat split.
  - rewrite K1, H1, fold_left_app. reflexivity.
  - rewrite K2, H2, fold_left_app. reflexivity.
  - apply Forall_app; auto.
  - rewrite K4, H4, app_assoc. reflexivity.
  - apply Forall_app; auto.
Qed.

Lemma Trace_emit l st : Trace st (emit l st).
Proof.
  exists [], []. repeat split; simpl; auto. rewrite app_nil_r. reflexivity.
Qed.

Lemma Trace_bound m st : Trace st (bound m st).
Proof.
  exists [], []. repeat split; simpl; auto. rewrite app_nil_r. reflexivity.
Qed.

Lemma Trace_attempted root name st :
  reserved root = false -> Trace st (attempted root name st).
Proof.
  intros Hr. exists [], [root]. repeat split; simpl; auto.
Qed.

Lemma Trace_registered plugin st :
  cls_protocol plugin <> None -> Trace st (registered plugin st).
Proof.
  intros Hp. exists [plugin], []. repeat split; simpl; auto.
  rewrite app_nil_r. reflexivity.
Qed.

Lemma Trace_register_plugin plugin st :
  Trace st (fst (register_plugin plugin st)).
Proof.
  destruct (cls_protocol plugin) eqn:E.
  - rewrite register_plugin_some by congruence. simpl.
    apply Trace_registered. congruence.
  - rewrite register_plugin_none by assumption. apply Trace_refl.
Qed.

Lemma Trace_inspect_module so name m st :
  Trace st (fst (inspect_module so name m st)).
Proof.
  rewrite inspect_module_run.
  destruct (set_to_list so (plugin_classes m)) as [|p [|q l]].
  - apply Trace_refl.
  - apply Trace_register_plugin.
  - eapply Trace_trans; [apply Trace_emit|apply Trace_register_plugin].
Qed.

Lemma Trace_inspect_and_register so name st :
  Trace st (fst (inspect_and_register so name st)).
Proof.
  unfold inspect_and_register, bind, read_module.
  destruct (module st) as [m|]; [|apply Trace_refl].
  apply Trace_inspect_module.
Qed.

Lemma Trace_file_body so root f st :
  reserved root = false -> Trace st (fst (file_body so root f st)).
Proof.
  intros Hr. destruct f as [name content].
  destruct (str_endswith name DATA_PLUGIN_TOKEN) eqn:E.
  - destruct content as [m|e].
    + rewrite file_body_loaded by assumption.
      eapply Trace_trans; [|apply Trace_inspect_module].
      eapply Trace_trans; [apply Trace_attempted, Hr|apply Trace_bound].
    + rewrite file_body_raises by assumption.
      eapply Trace_trans; [|apply Trace_inspect_and_register].
      eapply Trace_trans; [apply Trace_attempted, Hr|apply Trace_emit].
  - rewrite file_body_not_candidate by assumption. apply Trace_refl.
Qed.

(** A directory whose name is reserved is passed over. *)
Lemma dir_body_reserved so root files st :
  reserved root = true -> dir_body so (root, files) st = (st, Done tt).
Proof. unfold dir_body, reserved. simpl. intros ->. reflexivity. Qed.

Lemma dir_body_open so root files st :
  reserved root = false ->
  dir_body so (root, files) st =
    for_each files (file_body so root) (emit [(INFO, MsgLooking root)] st).
Proof. unfold dir_body, reserved. simpl. intros ->. reflexivity. Qed.

Lemma Trace_dir_body so entry st : Trace st (fst (dir_body so entry st)).
Proof.
  destruct entry as [root files]. destruct (reserved root) eqn:Hr.
  - rewrite dir_body_reserved by assumption. apply Trace_refl.
  - rewrite dir_body_open by assumption.
    apply (for_each_inv (Trace st)); [|apply Trace_emit].
    intros f s _ Hs. eapply Trace_trans; [exact Hs|].
    apply Trace_file_body. exact Hr.
Qed.

Lemma Trace_scan fs so locations st :
  Trace st (fst (scan fs so locations st)).
Proof.
  unfold scan. apply (for_each_inv (Trace st)); [|apply Trace_refl].
  intros loc s _ Hs. apply (for_each_inv (Trace st)); [|exact Hs].
  intros entry s' _ Hs'. eapply Trace_trans; [exact Hs'|].
  apply Trace_dir_body.
Qed.

(** The call runs the loops from [entered st] and returns the local
    dictionary, unless the loops raise. *)
Lemma load_plugins_from_path_run fs so locations token st :
  load_plugins_from_path fs so locations token st =
    (fst (scan fs so locations (entered st)),
     match snd (scan fs so locations (entered st)) with
     | Done _ => Done (added_plugins (fst (scan fs so locations (entered st))))
     | Raise e => Raise e
     end).
Proof.
  unfold load_plugins_from_path, bind, set_added_plugins, set_module,
    get_state, ret. simpl. fold (entered st).
  destruct (scan fs so locations (entered st)) as [st' [[]|e]]; reflexivity.
Qed.

(** ** Dictionaries built by a sequence of registrations *)

Lemma lookup_fold_register regs : forall d k,
  fold_left register regs d !! k =
    match last_registered k regs with
    | Some p => Some p
    | None => d !! k
    end.
Proof.
  induction regs as [|p regs IH]; intros d k; simpl; [reflexivity|].
  rewrite IH. destruct (last_registered k regs); [reflexivity|].
  unfold register. rewrite lookup_insert.
  destruct (decide (cls_protocol p = k)); reflexivity.
Qed.

Lemma last_registered_Some k regs p :
  last_registered k regs = Some p -> In p regs /\ cls_protocol p = k.
Proof.
  induction regs as [|q regs IH]; simpl; [discriminate|].
  destruct (last_registered k regs) as [r|].
  - intros [= <-]. destruct (IH eq_refl). auto.
  - destruct (decide (cls_protocol q = k)); [|discriminate].
    intros [= <-]. auto.
Qed.

Lemma fold_register_mono regs : forall a d : gmap (option string) PyClass,
  a ⊆ d -> fold_left register regs a ⊆ fold_left register regs d.
Proof.
  induction regs as [|p regs IH]; intros a d Had; simpl; [exact Had|].
  apply IH. unfold register. apply insert_mono. exact Had.
Qed.

Lemma for_each_done {A} (l : list A) (body : A -> M unit) :
  (forall x st, In x l -> snd (body x st) = Done tt) ->
  forall st, snd (for_each l body st) = Done tt.
Proof.
  induction l as [|x l IH]; intros Hbody st; simpl; [reflexivity|].
  unfold bind. pose proof (Hbody x st (or_introl eq_refl)) as Hx.
  destruct (body x st) as [st' [[]|e]]; simpl in Hx; [|discriminate].
  apply IH. intros y s Hy. apply Hbody. right. exact Hy.
Qed.

(** The call returns when every file that the walk lists loads. *)
Lemma load_plugins_from_path_returns fs so locations token st :
  (forall loc entry f,
     In loc locations -> In entry (os_walk fs loc) -> In f (snd entry) ->
     exists m, snd f = Loaded m) ->
  snd (load_plugins_from_path fs so locations token st)
    = Done (added_plugins (fst (load_plugins_from_path fs so locations token st))).
Proof.
  intros Hall. rewrite load_plugins_from_path_run. simpl.
  assert (snd (scan fs so locations (entered st)) = Done tt) as ->;
    [|reflexivity].
  unfold scan. apply for_each_done. intros loc s Hloc.
  apply for_each_done. intros [root files] s' Hentry.
  destruct (reserved root) eqn:Hr.
  - rewrite dir_body_reserved by assumption. reflexivity.
  - rewrite dir_body_open by assumption.
    apply for_each_done. intros [name content] s'' Hf.
    destruct (Hall loc (root, files) (name, content) Hloc Hentry Hf) as [m Hm].
    simpl in Hm. subst content.
    destruct (str_endswith name DATA_PLUGIN_TOKEN) eqn:E.
    + rewrite file_body_loaded by assumption. apply inspect_module_done.
    + rewrite file_body_not_candidate by assumption. reflexivity.
Qed.

Lemma new_records_app st st' l : log st' = log st ++ l -> new_records st st' = l.
Proof. unfold new_records. intros ->. apply drop_app_length. Qed.

(** ** C1: a file that fails to load *)

(** C1 (the code departs from the claim): when the first file of the first
    location is a candidate that fails to load, the scan does not complete,
    whatever else is there to scan.  The exception of the load is caught and
    logged, but the statements after the [try] statement are run all the same
    and read the variable [module], which is unbound: the call raises
    [UnboundLocalError], no other file is loaded and nothing is returned. *)
Theorem C1_broken_first_file_aborts_the_scan
    (so : SetOrder) (loc name e : string) (files : list File)
    (subdirs : list (string * Dir)) (others : FileSystem)
    (locations : list string) (token : string) (st : State) :
  str_endswith name DATA_PLUGIN_TOKEN = true ->
  reserved loc = false ->
  load_plugins_from_path
      ((loc, mkDir ((name, LoadRaises e) :: files) subdirs) :: others)
      so (loc :: locations) token st
    = ({| plugin_modules := plugin_modules st;
          log := log st ++ [(INFO, MsgLooking loc);
                            (INFO, MsgTrying name);
                            (ERROR, MsgUnableToImport name e)];
          sys_path := sys_path st ++ [loc];
          added_plugins := ∅;
          module := None |},
       Raise (UnboundLocalError "module")).
Proof.
  intros Hname Hloc. rewrite load_plugins_from_path_run.
  assert (scan ((loc, mkDir ((name, LoadRaises e) :: files) subdirs) :: others)
            so (loc :: locations) (entered st)
          = ({| plugin_modules := plugin_modules st;
                log := log st ++ [(INFO, MsgLooking loc);
                                  (INFO, MsgTrying name);
                                  (ERROR, MsgUnableToImport name e)];
                sys_path := sys_path st ++ [loc];
                added_plugins := ∅;
                module := None |},
             Raise (UnboundLocalError "module"))) as ->; [|reflexivity].
  unfold scan. cbn [for_each].
  apply bind_raise. unfold os_walk. cbn [fs_lookup].
  rewrite String.eqb_refl. cbn [walk for_each].
  apply bind_raise. rewrite dir_body_open by assumption. cbn [for_each].
  apply bind_raise. rewrite file_body_raises by assumption.
  unfold inspect_and_register, bind, read_module, emit, attempted, entered.
  simpl. rewrite <- !app_assoc. reflexivity.
Qed.

(** A valid file listed after the broken one is never reached. *)
Lemma C1_broken_first_file_aborts_the_scan_witness :
  load_plugins_from_path broken_first identity_order ["/plugins"]
      DATA_PLUGIN_TOKEN initial_state
    = ({| plugin_modules := ∅;
          log := [(INFO, MsgLooking "/plugins");
                  (INFO, MsgTrying "bad_plugin.py");
                  (ERROR, MsgUnableToImport "bad_plugin.py" "SyntaxError")];
          sys_path := ["/plugins"];
          added_plugins := ∅;
          module := None |},
       Raise (UnboundLocalError "module")).
Proof.
  apply (C1_broken_first_file_aborts_the_scan identity_order "/plugins"
           "bad_plugin.py" "SyntaxError"
           [("good_plugin.py", Loaded good_module)] [] [] []
           DATA_PLUGIN_TOKEN initial_state eq_refl eq_refl).
Defined.

(** ** C2: directories with a reserved name *)

(** C2 (the claim as stated fails): a file two levels below a directory named
    [__internal] is loaded and its handler registered; only the file directly
    in [__internal] is passed over. *)
Lemma C2_file_below_reserved_directory_is_loaded :
  load_plugins_from_path nested_reserved identity_order ["/plugins"]
      DATA_PLUGIN_TOKEN initial_state
    = ({| plugin_modules := {[ Some "deep" := DeepPlugin ]};
          log := [(INFO, MsgLooking "/plugins");
                  (INFO, MsgLooking "/plugins/__internal/helpers");
                  (INFO, MsgTrying "deep_plugin.py");
                  (WARNING, MsgMoreThanOnePlugin (Some "deep"))];
          sys_path := ["/plugins/__internal/helpers"];
          added_plugins := {[ Some "deep" := DeepPlugin ]};
          module := Some [("DeepPlugin", ObjClass DeepPlugin)] |},
       Done {[ Some "deep" := DeepPlugin ]}).
Proof. reflexivity. Qed.

(** C2 (amended): no load is attempted from a directory whose own name, the
    last component of its path, starts with [__]: every directory that a call
    adds to [sys.path], which is where a load attempt starts, has another
    name, and the loop body leaves the state as it is for a directory with
    such a name.  The walk goes on below it. *)
Theorem C2_no_load_from_a_reserved_directory
    (fs : FileSystem) (so : SetOrder) (locations : list string)
    (token : string) (st : State) :
  (exists roots,
     sys_path (fst (load_plugins_from_path fs so locations token st))
       = sys_path st ++ roots /\
     Forall (fun root => reserved root = false) roots) /\
  (forall root files s,
     reserved root = true -> dir_body so (root, files) s = (s, Done tt)) /\
  (forall top files subdirs sub,
     In sub subdirs ->
     incl (walk (os_path_join top (fst sub)) (snd sub))
          (walk top (mkDir files subdirs))).
Proof.
  split; [|split].
  - rewrite load_plugins_from_path_run. simpl.
    destruct (Trace_scan fs so locations (entered st))
      as (regs & roots & _ & _ & _ & Hp & Hr).
    exists roots. split; [exact Hp|exact Hr].
  - intros root files s. apply dir_body_reserved.
  - intros top files subdirs sub Hsub entry Hentry. simpl. right.
    apply in_flat_map. exists sub. split; assumption.
Qed.

Lemma C2_no_load_from_a_reserved_directory_witness :
  dir_body identity_order
    ("/plugins/__internal",
     [("shallow_plugin.py", Loaded [("ShallowPlugin", ObjClass ShallowPlugin)])])
    initial_state
  = (initial_state, Done tt).
Proof.
  apply (C2_no_load_from_a_reserved_directory nested_reserved identity_order
           ["/plugins"] DATA_PLUGIN_TOKEN initial_state).
  reflexivity.
Defined.

(** ** C3: several handler classes in one file *)

(** C3 (the claim as stated fails): a file with two qualifying classes of
    which none has a protocol; a warning names the class that is chosen, and
    nothing is registered. *)
Lemma C3_two_classes_none_registered :
  load_plugins_from_path two_drafts identity_order ["/plugins"]
      DATA_PLUGIN_TOKEN initial_state
    = ({| plugin_modules := ∅;
          log := [(INFO, MsgLooking "/plugins");
                  (INFO, MsgTrying "draft_plugin.py");
                  (WARNING, MsgMoreThanOneSubclass "draft_plugin.py" "DraftA")];
          sys_path := ["/plugins"];
          added_plugins := ∅;
          module := Some [("DraftA", ObjClass DraftA);
                          ("DraftB", ObjClass DraftB)] |},
       Done ∅).
Proof. reflexivity. Qed.

(** The class that comes first in the set need not be the first by name:
    here [Beta] is taken and [Alpha] is dropped. *)
Lemma first_of_the_set_is_not_first_by_name :
  load_plugins_from_path alpha_beta identity_order ["/plugins"]
      DATA_PLUGIN_TOKEN initial_state
    = ({| plugin_modules := {[ Some "b" := Beta ]};
          log := [(INFO, MsgLooking "/plugins");
                  (INFO, MsgTrying "two_plugin.py");
                  (WARNING, MsgMoreThanOneSubclass "two_plugin.py" "Beta");
                  (WARNING, MsgMoreThanOnePlugin (Some "b"))];
          sys_path := ["/plugins"];
          added_plugins := {[ Some "b" := Beta ]};
          module := Some [("Alpha", ObjClass Alpha); ("Beta", ObjClass Beta)] |},
       Done {[ Some "b" := Beta ]}).
Proof. reflexivity. Qed.

Lemma count_records_app f l1 l2 :
  count_records f (l1 ++ l2) = count_records f l1 + count_records f l2.
Proof. unfold count_records. rewrite List.filter_app, length_app. reflexivity. Qed.

Lemma registration_log_no_multiple reg plugin :
  count_records is_multiple_warning
    (conflict_log reg plugin ++ replacing_log reg plugin) = 0.
Proof.
  unfold conflict_log, replacing_log.
  destruct (py_ne (reg !! cls_protocol plugin) plugin);
    destruct (reg !! cls_protocol plugin); reflexivity.
Qed.

(** C3 (amended): when a loaded file yields more than one qualifying class
    once duplicates are collapsed, exactly one of them is chosen, the first
    element of the collapsed collection; exactly one warning about the
    several classes is logged, and it names the chosen class; the chosen
    class is registered under its protocol when it has one, nothing is
    registered when it has none, and no other class of the file is
    registered. *)
Theorem C3_one_class_chosen_per_file
    (so : SetOrder) (root name : string) (m : PyModule) (st : State)
    (plugin other : PyClass) (rest : list PyClass) :
  str_endswith name DATA_PLUGIN_TOKEN = true ->
  set_to_list so (plugin_classes m) = plugin :: other :: rest ->
  snd (file_body so root (name, Loaded m) st) = Done tt /\
  In plugin (plugin_classes m) /\
  count_records is_multiple_warning
    (new_records st (fst (file_body so root (name, Loaded m) st))) = 1 /\
  In (WARNING, MsgMoreThanOneSubclass name (cls_name plugin))
    (new_records st (fst (file_body so root (name, Loaded m) st))) /\
  match cls_protocol plugin with
  | Some x =>
      plugin_modules (fst (file_body so root (name, Loaded m) st))
        = <[Some x := plugin]> (plugin_modules st) /\
      added_plugins (fst (file_body so root (name, Loaded m) st))
        = <[Some x := plugin]> (added_plugins st)
  | None =>
      plugin_modules (fst (file_body so root (name, Loaded m) st))
        = plugin_modules st /\
      added_plugins (fst (file_body so root (name, Loaded m) st))
        = added_plugins st
  end.
Proof.
  intros Hname Hset.
  assert (In plugin (plugin_classes m)) as Hin.
  { apply (set_to_list_sound so). rewrite Hset. left. reflexivity. }
  rewrite file_body_loaded by assumption.
  rewrite inspect_module_run, Hset.
  destruct (cls_protocol plugin) as [x|] eqn:E.
  - rewrite register_plugin_some by congruence. simpl.
    unfold register. rewrite E. simpl.
    rewrite (new_records_app st _
      ([(INFO, MsgTrying name);
        (WARNING, MsgMoreThanOneSubclass name (cls_name plugin))]
       ++ conflict_log (plugin_modules st) plugin
       ++ replacing_log (plugin_modules st) plugin)).
    + repeat split; try assumption.
      * rewrite count_records_app, registration_log_no_multiple. reflexivity.
      * right. left. reflexivity.
    + simpl. rewrite <- !app_assoc. reflexivity.
  - rewrite register_plugin_none by assumption. simpl.
    rewrite (new_records_app st _
      [(INFO, MsgTrying name);
       (WARNING, MsgMoreThanOneSubclass name (cls_name plugin))]).
    + repeat split; try assumption. right. left. reflexivity.
    + simpl. rewrite <- app_assoc. reflexivity.
Qed.

Lemma C3_one_class_chosen_per_file_witness :
  snd (file_body identity_order "/plugins"
         ("two_plugin.py",
          Loaded [("Alpha", ObjClass Alpha); ("Beta", ObjClass Beta)])
         initial_state) = Done tt /\
  plugin_modules
    (fst (file_body identity_order "/plugins"
            ("two_plugin.py",
             Loaded [("Alpha", ObjClass Alpha); ("Beta", ObjClass Beta)])
            initial_state)) = <[Some "b" := Beta]> ∅.
Proof.
  destruct (C3_one_class_chosen_per_file identity_order "/plugins"
              "two_plugin.py"
              [("Alpha", ObjClass Alpha); ("Beta", ObjClass Beta)]
              initial_state Beta Alpha [] eq_refl eq_refl)
    as (Hdone & _ & _ & _ & Hreg & _).
  split; [exact Hdone|exact Hreg].
Defined.

(** ** C4: the same definition registered twice *)

(** C4 (the claim as stated fails): the first registration of a class logs
    nothing, the second one logs a warning. *)
Lemma C4_second_registration_logs_a_warning :
  log (fst (add_plugin GoodPlugin initial_state)) = [] /\
  log (fst (add_plugin GoodPlugin (fst (add_plugin GoodPlugin initial_state))))
    = [(WARNING, MsgReplacing GoodPlugin GoodPlugin (Some "good"))].
Proof. split; reflexivity. Qed.

(** C4 (amended): registering the same definition a second time leaves the
    registry as the first registration left it, and [add_plugin] logs one
    warning, the replacement of the definition by itself, since the protocol
    is a key of the registry by then; nothing else changes. *)
Theorem C4_second_registration_keeps_the_registry
    (plugin : PyClass) (st : State) :
  snd (add_plugin plugin (fst (add_plugin plugin st))) = Done tt /\
  plugin_modules (fst (add_plugin plugin (fst (add_plugin plugin st))))
    = plugin_modules (fst (add_plugin plugin st)) /\
  log (fst (add_plugin plugin (fst (add_plugin plugin st))))
    = log (fst (add_plugin plugin st))
        ++ [(WARNING, MsgReplacing plugin plugin (cls_protocol plugin))] /\
  sys_path (fst (add_plugin plugin (fst (add_plugin plugin st))))
    = sys_path st /\
  added_plugins (fst (add_plugin plugin (fst (add_plugin plugin st))))
    = added_plugins st /\
  module (fst (add_plugin plugin (fst (add_plugin plugin st)))) = module st.
Proof.
  rewrite !add_plugin_run. simpl.
  unfold replacing_log, register.
  rewrite lookup_insert_eq, insert_insert_eq. repeat split.
Qed.

(** ** C5: two files for one protocol *)

(** C5 (the code departs from the claim): two files define distinct handlers
    of the protocol "x" and the registry is empty at first.  The later
    definition wins and the call returns, but the warning about several
    plugins for one protocol is logged twice, the first time for the first
    registration, when no other plugin has claimed the protocol yet; a third
    warning reports the replacement. *)
Theorem C5_two_files_one_protocol (so : SetOrder) :
  load_plugins_from_path same_protocol so ["/plugins"]
      DATA_PLUGIN_TOKEN initial_state
    = ({| plugin_modules := {[ Some "x" := SecondX ]};
          log := [(INFO, MsgLooking "/plugins");
                  (INFO, MsgTrying "first_plugin.py");
                  (WARNING, MsgMoreThanOnePlugin (Some "x"));
                  (INFO, MsgTrying "second_plugin.py");
                  (WARNING, MsgMoreThanOnePlugin (Some "x"));
                  (WARNING, MsgReplacing SecondX FirstX (Some "x"))];
          sys_path := ["/plugins"; "/plugins"];
          added_plugins := {[ Some "x" := SecondX ]};
          module := Some [("SecondX", ObjClass SecondX)] |},
       Done {[ Some "x" := SecondX ]}) /\
  count_records is_conflict_warning
    (log (fst (load_plugins_from_path same_protocol so
                 ["/plugins"] DATA_PLUGIN_TOKEN initial_state))) = 2.
Proof.
  assert (scan same_protocol so ["/plugins"] (entered initial_state)
          = ({| plugin_modules := {[ Some "x" := SecondX ]};
                log := [(INFO, MsgLooking "/plugins");
                        (INFO, MsgTrying "first_plugin.py");
                        (WARNING, MsgMoreThanOnePlugin (Some "x"));
                        (INFO, MsgTrying "second_plugin.py");
                        (WARNING, MsgMoreThanOnePlugin (Some "x"));
                        (WARNING, MsgReplacing SecondX FirstX (Some "x"))];
                sys_path := ["/plugins"; "/plugins"];
                added_plugins := {[ Some "x" := SecondX ]};
                module := Some [("SecondX", ObjClass SecondX)] |}, Done tt))
    as Hscan.
  { unfold scan. cbn [for_each]. unfold bind at 1.
    change (os_walk same_protocol "/plugins") with
      [("/plugins",
        [("first_plugin.py", Loaded [("FirstX", ObjClass FirstX)]);
         ("second_plugin.py", Loaded [("SecondX", ObjClass SecondX)])])].
    cbn [for_each]. unfold bind at 1.
    rewrite dir_body_open by reflexivity.
    cbn [for_each]. unfold bind at 1.
    rewrite file_body_loaded by reflexivity.
    rewrite (inspect_module_single so _ _ FirstX) by reflexivity.
    rewrite register_plugin_some by discriminate.
    unfold bind at 1.
    rewrite file_body_loaded by reflexivity.
    rewrite (inspect_module_single so _ _ SecondX) by reflexivity.
    rewrite register_plugin_some by discriminate.
    reflexivity. }
  rewrite load_plugins_from_path_run, Hscan. split; reflexivity.
Qed.

(** ** C6: handlers without a protocol *)

Lemma last_registered_None regs :
  Forall (fun p => cls_protocol p <> None) regs ->
  last_registered None regs = None.
Proof.
  induction 1 as [|p regs Hp _ IH]; simpl; [reflexivity|].
  rewrite IH. destruct (decide (cls_protocol p = None)); [contradiction|].
  reflexivity.
Qed.

Lemma inspect_module_unset so name m st :
  (forall c, In c (plugin_classes m) -> cls_protocol c = None) ->
  plugin_modules (fst (inspect_module so name m st)) = plugin_modules st /\
  added_plugins (fst (inspect_module so name m st)) = added_plugins st.
Proof.
  intros Hnone. rewrite inspect_module_run.
  pose proof (set_to_list_sound so (plugin_classes m)) as Hs.
  destruct (set_to_list so (plugin_classes m)) as [|p [|q l]].
  - split; reflexivity.
  - rewrite register_plugin_none; [split; reflexivity|].
    apply Hnone, Hs. left. reflexivity.
  - rewrite register_plugin_none; [split; reflexivity|].
    apply Hnone, Hs. left. reflexivity.
Qed.

(** C6: a call of [load_plugins_from_path] never writes the key [None]:
    the entry of the registry under [None] is what it was before the call,
    the local dictionary has no such key and every key it has is the
    protocol, not [None], of the class it maps to; the dictionary returned is
    that local dictionary.  A file whose qualifying classes all have no
    protocol changes neither the registry nor the local dictionary. *)
Theorem C6_unset_protocol_never_registered
    (fs : FileSystem) (so : SetOrder) (locations : list string)
    (token : string) (st : State) :
  plugin_modules (fst (load_plugins_from_path fs so locations token st)) !! None
    = plugin_modules st !! None /\
  added_plugins (fst (load_plugins_from_path fs so locations token st)) !! None
    = None /\
  (forall k p,
     added_plugins (fst (load_plugins_from_path fs so locations token st)) !! k
       = Some p ->
     cls_protocol p = k /\ k <> None) /\
  (forall a,
     snd (load_plugins_from_path fs so locations token st) = Done a ->
     a = added_plugins (fst (load_plugins_from_path fs so locations token st))) /\
  (forall root name m s,
     (forall c, In c (plugin_classes m) -> cls_protocol c = None) ->
     plugin_modules (fst (file_body so root (name, Loaded m) s))
       = plugin_modules s /\
     added_plugins (fst (file_body so root (name, Loaded m) s))
       = added_plugins s).
Proof.
  rewrite load_plugins_from_path_run. simpl.
  destruct (Trace_scan fs so locations (entered st))
    as (regs & roots & Hreg & Hadd & Hnn & _ & _).
  simpl in Hreg, Hadd.
  split; [|split; [|split; [|split]]].
  - rewrite Hreg, lookup_fold_register, last_registered_None by assumption.
    reflexivity.
  - rewrite Hadd, lookup_fold_register, last_registered_None by assumption.
    apply lookup_empty.
  - intros k p. rewrite Hadd, lookup_fold_register.
    destruct (last_registered k regs) as [q|] eqn:E;
      [|rewrite lookup_empty; discriminate].
    intros [= <-]. apply last_registered_Some in E. destruct E as [Hin Hk].
    split; [exact Hk|]. rewrite <- Hk.
    rewrite Forall_forall in Hnn. apply Hnn. apply list_elem_of_In. exact Hin.
  - intros a. destruct (snd (scan fs so locations (entered st))) as [[]|e];
      [|discriminate].
    intros [= <-]. reflexivity.
  - intros root name m s Hnone.
    destruct (str_endswith name DATA_PLUGIN_TOKEN) eqn:E.
    + rewrite file_body_loaded by assumption.
      destruct (inspect_module_unset so name m
                  (bound m (attempted root name s)) Hnone) as [-> ->].
      split; reflexivity.
    + rewrite file_body_not_candidate by assumption. split; reflexivity.
Qed.

Lemma C6_unset_protocol_never_registered_witness :
  plugin_modules
    (fst (file_body identity_order "/plugins"
            ("draft_plugin.py",
             Loaded [("DraftA", ObjClass DraftA); ("DraftB", ObjClass DraftB)])
            initial_state)) = ∅ /\
  added_plugins
    (fst (file_body identity_order "/plugins"
            ("draft_plugin.py",
             Loaded [("DraftA", ObjClass DraftA); ("DraftB", ObjClass DraftB)])
            initial_state)) = ∅.
Proof.
  apply (C6_unset_protocol_never_registered two_drafts identity_order
           ["/plugins"] DATA_PLUGIN_TOKEN initial_state).
  intros c [<-|[<-|[]]]; reflexivity.
Defined.

(** ** C7: the locations scanned at start-up *)

Lemma str_split_not_nil sep s : str_split sep s <> [].
Proof.
  destruct s as [|c s]; simpl; [discriminate|].
  destruct (Ascii.eqb c sep); [discriminate|].
  destruct (str_split sep s); discriminate.
Qed.

Lemma str_join_cons sep p q ps :
  str_join sep (p :: q :: ps) = p +:+ String sep (str_join sep (q :: ps)).
Proof. reflexivity. Qed.

(** Joining the pieces of a split gives the string back. *)
Lemma str_join_split sep s : str_join sep (str_split sep s) = s.
Proof.
  induction s as [|c s IH]; simpl; [reflexivity|].
  destruct (Ascii.eqb c sep) eqn:E.
  - apply Ascii.eqb_eq in E. subst c.
    destruct (str_split sep s) as [|q ps] eqn:Hs;
      [exfalso; exact (str_split_not_nil sep s Hs)|].
    rewrite str_join_cons, IH. reflexivity.
  - destruct (str_split sep s) as [|q ps] eqn:Hs;
      [exfalso; exact (str_split_not_nil sep s Hs)|].
    destruct ps as [|r ps].
    + rewrite <- IH. reflexivity.
    + rewrite <- IH. reflexivity.
Qed.

(** No piece of a split contains the separator. *)
Lemma str_split_pieces sep s :
  Forall (fun piece => str_contains sep piece = false) (str_split sep s).
Proof.
  induction s as [|c s IH]; simpl; [repeat constructor|].
  destruct (Ascii.eqb c sep) eqn:E.
  - constructor; [reflexivity|exact IH].
  - destruct (str_split sep s) as [|q ps]; [repeat constructor; simpl|].
    + rewrite E. reflexivity.
    + inversion IH as [|? ? Hq Hps]; subst. constructor; [|exact Hps].
      simpl. rewrite E, Hq. reflexivity.
Qed.

(** C7: the list of locations scanned at start-up is the built-in plugin
    directory followed by the additional locations; there is none when the
    environment setting is absent, and otherwise they are the pieces of the
    setting between the path separators, in their order: joined with the
    separator they give the setting back, and no piece contains the
    separator.  The start-up code scans this list. *)
Theorem C7_startup_locations (env : option string) (plugin_dir : string) :
  exists extra,
    startup_locations env plugin_dir = plugin_dir :: extra /\
    head (startup_locations env plugin_dir) = Some plugin_dir /\
    match env with
    | None => extra = []
    | Some path =>
        extra = str_split os_pathsep path /\
        str_join os_pathsep extra = path /\
        Forall (fun piece => str_contains os_pathsep piece = false) extra
    end /\
    forall fs so,
      module_init fs so env plugin_dir
        = load_plugins_from_path fs so (plugin_dir :: extra)
            DATA_PLUGIN_TOKEN banner_state.
Proof.
  destruct env as [path|]; simpl.
  - exists (str_split os_pathsep path). repeat split.
    + apply str_join_split.
    + apply str_split_pieces.
  - exists []. repeat split.
Qed.

(** ** C8: the dictionary returned *)

(** C8: when a call of [load_plugins_from_path] returns, there is a sequence
    of classes, each with a protocol, such that the dictionary returned is
    the result of registering them in this order in an empty dictionary and
    the registry is the result of registering them, in the same order, in the
    registry of before the call.  So the returned dictionary maps each
    protocol registered during the call to the definition registered last
    for it, and it is included in the registry. *)
Theorem C8_returned_mapping
    (fs : FileSystem) (so : SetOrder) (locations : list string)
    (token : string) (st st' : State) (added : gmap (option string) PyClass) :
  load_plugins_from_path fs so locations token st = (st', Done added) ->
  exists regs,
    Forall (fun p => cls_protocol p <> None) regs /\
    added = fold_left register regs ∅ /\
    plugin_modules st' = fold_left register regs (plugin_modules st) /\
    (forall k, added !! k = last_registered k regs) /\
    (forall k, last_registered k regs = None ->
               plugin_modules st' !! k = plugin_modules st !! k) /\
    added ⊆ plugin_modules st'.
Proof.
  rewrite load_plugins_from_path_run.
  destruct (Trace_scan fs so locations (entered st))
    as (regs & roots & Hreg & Hadd & Hnn & _ & _).
  simpl in Hreg, Hadd.
  destruct (snd (scan fs so locations (entered st))) as [[]|e];
    [|discriminate].
  intros [= <- <-]. exists regs. split; [exact Hnn|].
  split; [exact Hadd|]. split; [exact Hreg|]. split; [|split].
  - intros k. rewrite Hadd, lookup_fold_register.
    destruct (last_registered k regs); [reflexivity|apply lookup_empty].
  - intros k Hk. rewrite Hreg, lookup_fold_register, Hk. reflexivity.
  - rewrite Hadd, Hreg. apply fold_register_mono. apply map_empty_subseteq.
Qed.

Lemma C8_returned_mapping_witness :
  exists regs,
    Forall (fun p => cls_protocol p <> None) regs /\
    {[ Some "x" := SecondX ]} = fold_left register regs ∅ /\
    plugin_modules
      (fst (load_plugins_from_path same_protocol identity_order ["/plugins"]
              DATA_PLUGIN_TOKEN initial_state))
      = fold_left register regs (plugin_modules initial_state) /\
    (forall k, ({[ Some "x" := SecondX ]} : gmap (option string) PyClass) !! k
               = last_registered k regs) /\
    (forall k, last_registered k regs = None ->
               plugin_modules
                 (fst (load_plugins_from_path same_protocol identity_order
                         ["/plugins"] DATA_PLUGIN_TOKEN initial_state)) !! k
               = plugin_modules initial_state !! k) /\
    ({[ Some "x" := SecondX ]} : gmap (option string) PyClass)
      ⊆ plugin_modules
          (fst (load_plugins_from_path same_protocol identity_order
                  ["/plugins"] DATA_PLUGIN_TOKEN initial_state)).
Proof.
  apply (C8_returned_mapping same_protocol identity_order ["/plugins"]
           DATA_PLUGIN_TOKEN initial_state).
  reflexivity.
Defined.

(** ** C9: what follows a failed load *)

Lemma register_plugin_module plugin st :
  module (fst (register_plugin plugin st)) = module st.
Proof.
  destruct (cls_protocol plugin) eqn:E.
  - rewrite register_plugin_some by congruence. reflexivity.
  - rewrite register_plugin_none by assumption. reflexivity.
Qed.

Lemma inspect_module_module so name m st :
  module (fst (inspect_module so name m st)) = module st.
Proof.
  rewrite inspect_module_run.
  destruct (set_to_list so (plugin_classes m)) as [|p [|q l]];
    [reflexivity| |]; rewrite register_plugin_module; reflexivity.
Qed.

(** C9: for a candidate file whose load raises, the exception is logged and
    the statements after the [try] statement run on the variable [module] as
    it is.  When it is bound, to the module [m] of the last file of the call
    that loaded, the classes of [m] go through selection and registration
    once more, under the name of the broken file, and [module] stays bound
    to [m]; when it is unbound, as it is from the start of a call until a
    file loads, [UnboundLocalError] is raised.  A file that loads binds
    [module] to its module. *)
Theorem C9_failed_load_inspects_the_previous_module
    (so : SetOrder) (root name : string) (e : string) (st : State) :
  str_endswith name DATA_PLUGIN_TOKEN = true ->
  file_body so root (name, LoadRaises e) st
    = match module st with
      | Some m =>
          inspect_module so name m
            (emit [(ERROR, MsgUnableToImport name e)] (attempted root name st))
      | None =>
          (emit [(ERROR, MsgUnableToImport name e)] (attempted root name st),
           Raise (UnboundLocalError "module"))
      end /\
  module (fst (file_body so root (name, LoadRaises e) st)) = module st /\
  module (entered st) = None /\
  forall m,
    snd (file_body so root (name, Loaded m) st) = Done tt /\
    module (fst (file_body so root (name, Loaded m) st)) = Some m.
Proof.
  intros Hname. split; [|split; [|split]].
  - rewrite file_body_raises by assumption.
    unfold inspect_and_register, bind, read_module. simpl.
    destruct (module st); reflexivity.
  - rewrite file_body_raises by assumption.
    unfold inspect_and_register, bind, read_module. simpl.
    destruct (module st) as [m|] eqn:E; [|simpl; congruence].
    rewrite inspect_module_module. simpl. congruence.
  - reflexivity.
  - intros m. rewrite file_body_loaded by assumption.
    split; [apply inspect_module_done|].
    rewrite inspect_module_module. reflexivity.
Qed.

(** The handler of [good_plugin.py] is registered a second time when
    [bad_plugin.py], listed after it, fails to load. *)
Lemma C9_failed_load_inspects_the_previous_module_witness :
  new_records
    (fst (file_body identity_order "/plugins"
            ("good_plugin.py", Loaded good_module) initial_state))
    (fst (file_body identity_order "/plugins"
            ("bad_plugin.py", LoadRaises "SyntaxError")
            (fst (file_body identity_order "/plugins"
                    ("good_plugin.py", Loaded good_module) initial_state))))
  = [(INFO, MsgTrying "bad_plugin.py");
     (ERROR, MsgUnableToImport "bad_plugin.py" "SyntaxError");
     (WARNING, MsgReplacing GoodPlugin GoodPlugin (Some "good"))].
Proof.
  rewrite (proj1 (C9_failed_load_inspects_the_previous_module identity_order
                    "/plugins" "bad_plugin.py" "SyntaxError"
                    (fst (file_body identity_order "/plugins"
                            ("good_plugin.py", Loaded good_module)
                            initial_state))
                    eq_refl)).
  reflexivity.
Defined.

(** ** C10: the warning about several plugins for one protocol *)

Lemma py_ne_spec (o : option PyClass) (plugin : PyClass) :
  py_ne o plugin = true <->
  ~ exists q, o = Some q /\ cls_id q = cls_id plugin.
Proof.
  unfold py_ne, py_is. destruct o as [q|]; split.
  - intros H (q' & [= <-] & Hid). rewrite Hid, Nat.eqb_refl in H.
    discriminate.
  - intros H. destruct (Nat.eqb (cls_id q) (cls_id plugin)) eqn:E;
      [|reflexivity].
    apply Nat.eqb_eq in E. exfalso. apply H. exists q. auto.
  - intros _ (q & Hq & _). discriminate.
  - reflexivity.
Qed.

(** C10: when a class with a protocol reaches the last statement of the loop
    body, the warning about several plugins for this protocol is logged
    exactly when the entry of the registry for the protocol is not this very
    object; this is so when the registry has no entry for the protocol, so
    the first registration of a protocol logs the warning. *)
Theorem C10_conflict_warning_without_conflict
    (plugin : PyClass) (x : string) (st : State) :
  cls_protocol plugin = Some x ->
  (In (WARNING, MsgMoreThanOnePlugin (Some x))
      (new_records st (fst (register_plugin plugin st)))
   <-> ~ exists q, plugin_modules st !! Some x = Some q
                   /\ cls_id q = cls_id plugin) /\
  count_records is_conflict_warning
    (new_records st (fst (register_plugin plugin st)))
    = (if py_ne (plugin_modules st !! Some x) plugin then 1 else 0) /\
  (plugin_modules st !! Some x = None ->
   In (WARNING, MsgMoreThanOnePlugin (Some x))
      (new_records st (fst (register_plugin plugin st))) /\
   plugin_modules (fst (register_plugin plugin st)) !! Some x = Some plugin).
Proof.
  intros Hx. rewrite register_plugin_some by congruence. simpl.
  rewrite (new_records_app st (registered plugin st)
             (conflict_log (plugin_modules st) plugin
              ++ replacing_log (plugin_modules st) plugin)) by reflexivity.
  rewrite <- py_ne_spec.
  unfold conflict_log, replacing_log, register. rewrite Hx.
  destruct (plugin_modules st !! Some x) as [q|] eqn:Hq; simpl.
  - destruct (negb (py_is q plugin)); simpl.
    + split; [split; [reflexivity|intros _; left; reflexivity]|].
      split; [reflexivity|discriminate].
    + split; [split; [intros [H|[]]; discriminate|discriminate]|].
      split; [reflexivity|discriminate].
  - split; [split; [reflexivity|intros _; left; reflexivity]|].
    split; [reflexivity|]. intros _. split; [left; reflexivity|].
    apply lookup_insert_eq.
Qed.

Lemma C10_conflict_warning_without_conflict_witness :
  In (WARNING, MsgMoreThanOnePlugin (Some "good"))
     (new_records initial_state (fst (register_plugin GoodPlugin initial_state)))
  /\ plugin_modules (fst (register_plugin GoodPlugin initial_state))
       !! Some "good" = Some GoodPlugin.
Proof.
  apply (C10_conflict_warning_without_conflict GoodPlugin "good" initial_state
           eq_refl).
  reflexivity.
Defined.

(** * Further properties of the scan *)

(** ** When a call returns *)

Lemma file_candidates (root : string) (files : list File) :
  flat_map (fun f : File => if is_candidate f then [(root, f)] else []) files
    = map (pair root) (List.filter is_candidate files).
Proof.
  induction files as [|f files IH]; simpl; [reflexivity|].
  destruct (is_candidate f); simpl; rewrite IH; reflexivity.
Qed.









(** ** The load attempts of a call *)

Lemma new_records_refl st : new_records st st = [].
Proof. unfold new_records. apply drop_all. Qed.

(** [logger] only appends: the records of two consecutive pieces of a run
    are the records of the whole. *)
Lemma new_records_trans st st1 st2 l1 l2 :
  log st1 = log st ++ l1 -> log st2 = log st1 ++ l2 ->
  new_records st st2 = new_records st st1 ++ new_records st1 st2.
Proof.
  intros H1 H2.
  rewrite (new_records_app st st1 l1 H1), (new_records_app st1 st2 l2 H2).
  apply new_records_app. rewrite H2, H1, app_assoc. reflexivity.
Qed.

(** Every piece of the scan appends to the log. *)
Lemma for_each_log {A} (l : list A) (body : A -> M unit) :
  (forall x st, In x l -> exists r, log (fst (body x st)) = log st ++ r) ->
  forall st, exists r, log (fst (for_each l body st)) = log st ++ r.
Proof.
  intros Hbody st.
  apply (for_each_inv (fun s => exists r, log s = log st ++ r) l body).
  - intros x s Hx [r Hr]. destruct (Hbody x s Hx) as [r' Hr'].
    exists (r ++ r'). rewrite Hr', Hr, app_assoc. reflexivity.
  - exists []. rewrite app_nil_r. reflexivity.
Qed.

Lemma register_plugin_log plugin st :
  exists r, log (fst (register_plugin plugin st)) = log st ++ r.
Proof.
  destruct (cls_protocol plugin) eqn:E.
  - rewrite register_plugin_some by congruence. simpl. eauto.
  - rewrite register_plugin_none by assumption. exists [].
    rewrite app_nil_r. reflexivity.
Qed.

Lemma inspect_module_log so name m st :
  exists r, log (fst (inspect_module so name m st)) = log st ++ r.
Proof.
  rewrite inspect_module_run.
  destruct (set_to_list so (plugin_classes m)) as [|p [|q l]].
  - exists []. rewrite app_nil_r. reflexivity.
  - apply register_plugin_log.
  - destruct (register_plugin_log p
      (emit [(WARNING, MsgMoreThanOneSubclass name (cls_name p))] st))
      as [r Hr].
    eexists. rewrite Hr. simpl. rewrite <- app_assoc. reflexivity.
Qed.

Lemma file_body_log so root f st :
  exists r, log (fst (file_body so root f st)) = log st ++ r.
Proof.
  destruct f as [name content].
  destruct (str_endswith name DATA_PLUGIN_TOKEN) eqn:E.
  - destruct content as [m|e].
    + rewrite file_body_loaded by assumption.
      destruct (inspect_module_log so name m (bound m (attempted root name st)))
        as [r Hr].
      eexists. rewrite Hr. simpl. rewrite <- app_assoc. reflexivity.
    + rewrite file_body_raises by assumption.
      unfold inspect_and_register, bind, read_module. simpl.
      destruct (module st) as [m|]; simpl.
      * destruct (inspect_module_log so name m
          (emit [(ERROR, MsgUnableToImport name e)] (attempted root name st)))
          as [r Hr].
        eexists. rewrite Hr. simpl. rewrite <- !app_assoc. reflexivity.
      * eexists. rewrite <- app_assoc. reflexivity.
  - rewrite file_body_not_candidate by assumption. exists [].
    rewrite app_nil_r. reflexivity.
Qed.

Lemma dir_body_log so entry st :
  exists r, log (fst (dir_body so entry st)) = log st ++ r.
Proof.
  destruct entry as [root files]. destruct (reserved root) eqn:Hr.
  - rewrite dir_body_reserved by assumption. exists [].
    rewrite app_nil_r. reflexivity.
  - rewrite dir_body_open by assumption.
    destruct (for_each_log files (file_body so root)
                (fun f s _ => file_body_log so root f s)
                (emit [(INFO, MsgLooking root)] st)) as [r Hlog].
    eexists. rewrite Hlog. simpl. rewrite <- app_assoc. reflexivity.
Qed.

Lemma scan_log fs so locations st :
  exists r, log (fst (scan fs so locations st)) = log st ++ r.
Proof.
  unfold scan. apply for_each_log. intros loc s _.
  apply for_each_log. intros entry s' _. apply dir_body_log.
Qed.

Lemma register_plugin_attempts plugin st :
  sys_path (fst (register_plugin plugin st)) = sys_path st /\
  List.filter is_trying (new_records st (fst (register_plugin plugin st))) = [].
Proof.
  destruct (cls_protocol plugin) eqn:E.
  - rewrite register_plugin_some by congruence. simpl.
    split; [reflexivity|].
    rewrite (new_records_app st (registered plugin st)
               (conflict_log (plugin_modules st) plugin
                ++ replacing_log (plugin_modules st) plugin)) by reflexivity.
    unfold conflict_log, replacing_log.
    destruct (py_ne (plugin_modules st !! cls_protocol plugin) plugin);
      destruct (plugin_modules st !! cls_protocol plugin); reflexivity.
  - rewrite register_plugin_none by assumption. simpl.
    rewrite new_records_refl. split; reflexivity.
Qed.

Lemma inspect_module_attempts so name m st :
  sys_path (fst (inspect_module so name m st)) = sys_path st /\
  List.filter is_trying (new_records st (fst (inspect_module so name m st)))
    = [].
Proof.
  rewrite inspect_module_run.
  destruct (set_to_list so (plugin_classes m)) as [|p [|q l]].
  - simpl. rewrite new_records_refl. split; reflexivity.
  - apply register_plugin_attempts.
  - destruct (register_plugin_attempts p
      (emit [(WARNING, MsgMoreThanOneSubclass name (cls_name p))] st))
      as [Hs Hl].
    destruct (register_plugin_log p
      (emit [(WARNING, MsgMoreThanOneSubclass name (cls_name p))] st))
      as [r Hr].
    split; [rewrite Hs; reflexivity|].
    rewrite (new_records_trans st
               (emit [(WARNING, MsgMoreThanOneSubclass name (cls_name p))] st)
               _ [(WARNING, MsgMoreThanOneSubclass name (cls_name p))] r
               eq_refl Hr).
    rewrite List.filter_app, Hl.
    rewrite (new_records_app st
               (emit [(WARNING, MsgMoreThanOneSubclass name (cls_name p))] st)
               [(WARNING, MsgMoreThanOneSubclass name (cls_name p))] eq_refl).
    reflexivity.
Qed.

Lemma Attempts_ret : Attempts [] (ret tt).
Proof.
  intros st _. simpl. rewrite new_records_refl, app_nil_r. split; reflexivity.
Qed.

Lemma Attempts_for_each {A} (c : A -> list (string * File)) (l : list A)
    (body : A -> M unit) :
  (forall x st, In x l -> exists r, log (fst (body x st)) = log st ++ r) ->
  (forall x, In x l -> Attempts (c x) (body x)) ->
  Attempts (flat_map c l) (for_each l body).
Proof.
  induction l as [|x l IH]; intros Hlog Hbody; [apply Attempts_ret|].
  assert (Attempts (flat_map c l) (for_each l body)) as Hrest.
  { apply IH; intros; [apply Hlog|apply Hbody]; right; assumption. }
  assert (forall s, exists r, log (fst (for_each l body s)) = log s ++ r)
    as Hrestlog.
  { apply for_each_log. intros y s Hy. apply Hlog. right. exact Hy. }
  pose proof (Hbody x (or_introl eq_refl)) as Hx.
  pose proof (fun s => Hlog x s (or_introl eq_refl)) as Hxlog.
  clear IH Hlog Hbody.
  intros st. simpl. unfold bind.
  specialize (Hx st). destruct (Hxlog st) as [r1 Hr1].
  destruct (body x st) as [st' [[]|e]]; simpl in *; [|discriminate].
  intros Hdone. destruct (Hx eq_refl) as [Hs Hl].
  destruct (Hrest st' Hdone) as [Hs' Hl'].
  destruct (Hrestlog st') as [r2 Hr2].
  split.
  - rewrite Hs', Hs, map_app, app_assoc. reflexivity.
  - rewrite (new_records_trans st st' _ r1 r2 Hr1 Hr2).
    rewrite List.filter_app, Hl, Hl', map_app. reflexivity.
Qed.

Lemma Attempts_file_body so (root : string) (f : File) :
  Attempts (if is_candidate f then [(root, f)] else []) (file_body so root f).
Proof.
  destruct f as [name content]. unfold is_candidate. simpl.
  destruct (str_endswith name DATA_PLUGIN_TOKEN) eqn:E.
  - intros st. destruct content as [m|e].
    + rewrite file_body_loaded by assumption. intros _.
      destruct (inspect_module_attempts so name m
                  (bound m (attempted root name st))) as [Hs Hl].
      destruct (inspect_module_log so name m
                  (bound m (attempted root name st))) as [r Hr].
      split; [rewrite Hs; reflexivity|].
      rewrite (new_records_trans st (bound m (attempted root name st)) _
                 [(INFO, MsgTrying name)] r eq_refl Hr).
      rewrite List.filter_app, Hl.
      rewrite (new_records_app st (bound m (attempted root name st))
                 [(INFO, MsgTrying name)] eq_refl).
      reflexivity.
    + rewrite file_body_raises by assumption.
      unfold inspect_and_register, bind, read_module. simpl.
      destruct (module st) as [m|]; simpl; [|discriminate]. intros _.
      destruct (inspect_module_attempts so name m
                  (emit [(ERROR, MsgUnableToImport name e)]
                     (attempted root name st))) as [Hs Hl].
      destruct (inspect_module_log so name m
                  (emit [(ERROR, MsgUnableToImport name e)]
                     (attempted root name st))) as [r Hr].
      split; [rewrite Hs; reflexivity|].
      rewrite (new_records_trans st
                 (emit [(ERROR, MsgUnableToImport name e)]
                    (attempted root name st)) _
                 [(INFO, MsgTrying name); (ERROR, MsgUnableToImport name e)] r);
        [|simpl; rewrite <- app_assoc; reflexivity|exact Hr].
      rewrite List.filter_app, Hl.
      rewrite (new_records_app st
                 (emit [(ERROR, MsgUnableToImport name e)]
                    (attempted root name st))
                 [(INFO, MsgTrying name); (ERROR, MsgUnableToImport name e)]);
        [reflexivity|simpl; rewrite <- app_assoc; reflexivity].
  - intros st. rewrite file_body_not_candidate by assumption.
    apply Attempts_ret.
Qed.

Lemma Attempts_dir_body so entry :
  Attempts (dir_candidates entry) (dir_body so entry).
Proof.
  destruct entry as [root files]. unfold dir_candidates. simpl.
  destruct (reserved root) eqn:Hres.
  - intros st. rewrite dir_body_reserved by assumption. apply Attempts_ret.
  - intros st. rewrite dir_body_open by assumption.
    rewrite <- file_candidates. intros Hdone.
    assert (Attempts
              (flat_map (fun f : File =>
                           if is_candidate f then [(root, f)] else []) files)
              (for_each files (file_body so root))) as Hfiles.
    { apply Attempts_for_each.
      - intros f s _. apply file_body_log.
      - intros f _. apply Attempts_file_body. }
    destruct (Hfiles (emit [(INFO, MsgLooking root)] st) Hdone) as [Hs Hl].
    destruct (for_each_log files (file_body so root)
                (fun f s _ => file_body_log so root f s)
                (emit [(INFO, MsgLooking root)] st)) as [r Hr].
    split; [rewrite Hs; reflexivity|].
    rewrite (new_records_trans st (emit [(INFO, MsgLooking root)] st) _
               [(INFO, MsgLooking root)] r eq_refl Hr).
    rewrite List.filter_app, Hl.
    rewrite (new_records_app st (emit [(INFO, MsgLooking root)] st)
               [(INFO, MsgLooking root)] eq_refl).
    reflexivity.
Qed.

Lemma Attempts_scan fs so locations :
  Attempts (scan_candidates fs locations) (scan fs so locations).
Proof.
  unfold scan, scan_candidates. apply Attempts_for_each.
  - intros loc s _. apply for_each_log. intros entry s' _. apply dir_body_log.
  - intros loc _. apply Attempts_for_each.
    + intros entry s _. apply dir_body_log.
    + intros entry _. apply Attempts_dir_body.
Qed.

(** A call that returns has attempted one load for every file whose name
    ends with [_plugin.py] in every walked directory whose name is not
    reserved, in the order of the scan and whatever its argument [token]:
    [sys.path] has grown by the directory of each of them, once per file,
    and the names logged on entering the [try] statement are theirs. *)
Theorem call_attempts_every_candidate
    (fs : FileSystem) (so : SetOrder) (locations : list string)
    (token : string) (st : State) (added : gmap (option string) PyClass) :
  snd (load_plugins_from_path fs so locations token st) = Done added ->
  sys_path (fst (load_plugins_from_path fs so locations token st))
    = sys_path st ++ map fst (scan_candidates fs locations) /\
  List.filter is_trying
    (new_records st (fst (load_plugins_from_path fs so locations token st)))
    = map (fun c => (INFO, MsgTrying (fst (snd c))))
          (scan_candidates fs locations).
Proof.
  rewrite load_plugins_from_path_run. simpl. intros Hdone.
  assert (snd (scan fs so locations (entered st)) = Done tt) as Hscan.
  { destruct (snd (scan fs so locations (entered st))) as [[]|e];
      [reflexivity|discriminate]. }
  apply (Attempts_scan fs so locations (entered st)) in Hscan.
  exact Hscan.
Qed.

Lemma call_attempts_every_candidate_witness :
  sys_path (fst (load_plugins_from_path same_protocol identity_order
                   ["/plugins"] "_ext.py" initial_state))
    = ["/plugins"; "/plugins"] /\
  List.filter is_trying
    (new_records initial_state
       (fst (load_plugins_from_path same_protocol identity_order
               ["/plugins"] "_ext.py" initial_state)))
    = [(INFO, MsgTrying "first_plugin.py");
       (INFO, MsgTrying "second_plugin.py")].
Proof.
  apply (call_attempts_every_candidate same_protocol identity_order
           ["/plugins"] "_ext.py" initial_state {[ Some "x" := SecondX ]}).
  reflexivity.
Defined.

(** ** Where the registered classes come from *)









